(** * Plant service: the Flask-RESTful CRUD handlers of [server/app.py]

    The two resources [Plants] ([/plants]) and [PlantByID]
    ([/plants/<int:id>]) are embedded as computations in a small
    state-and-exception monad over the [plants] table.  Request and
    response bodies are Python values as [request.get_json()] and
    [jsonify] see them.  The routing rule of [/plants/<int:id>], the
    64-bit integers of the configured SQLite store and the attributes an
    entity object has beside its columns are part of the model. *)

From Stdlib Require Import ZArith String Floats.PrimFloat Floats.FloatOps Floats.SpecFloat.
From stdpp Require Import base option list gmap strings.

Local Open Scope Z_scope.
Local Open Scope string_scope.

(** ** Python values *)

(** What [request.get_json()] can return and what [jsonify] accepts:
    [None], booleans, integers, floats, strings, lists, and dicts with
    string keys.  A dict is a finite map: its keys are pairwise distinct. *)
#[warnings="-register-all"]
Inductive value : Type :=
| VNone
| VBool (b : bool)
| VInt (n : Z)
| VFloat (x : float)
| VStr (s : string)
| VList (l : list value)
| VDict (d : gmap string value).

(** The name [type(v).__name__] prints in the interpreter's messages. *)
Definition type_name (v : value) : string :=
  match v with
  | VNone => "NoneType"
  | VBool _ => "bool"
  | VInt _ => "int"
  | VFloat _ => "float"
  | VStr _ => "str"
  | VList _ => "list"
  | VDict _ => "dict"
  end.

(** ** Exceptions *)

(** The exceptions the handlers can meet.  [HTTPException] is what
    [request.get_json()] raises on a body that is not JSON;
    [IntegrityError] is the storage layer refusing a flush;
    [OverflowError] is the SQLite driver refusing to bind an integer that
    does not fit 64 bits. *)
Inductive exn : Type :=
| KeyError (key : string)
| TypeError (msg : string)
| AttributeError (msg : string)
| HTTPException (msg : string)
| IntegrityError (msg : string)
| OverflowError (msg : string).

(** [str(e)]. *)
Definition str (e : exn) : string :=
  match e with
  | KeyError key => "'" ++ key ++ "'"
  | TypeError msg => msg
  | AttributeError msg => msg
  | HTTPException msg => msg
  | IntegrityError msg => msg
  | OverflowError msg => msg
  end.

(** [data[key]] for a string [key]; the messages are CPython's. *)
Definition getitem (data : value) (key : string) : exn + value :=
  match data with
  | VDict d =>
      match d !! key with
      | Some v => inr v
      | None => inl (KeyError key)
      end
  | VList _ => inl (TypeError "list indices must be integers or slices, not str")
  | VStr _ => inl (TypeError "string indices must be integers, not 'str'")
  | _ => inl (TypeError ("'" ++ type_name data ++ "' object is not subscriptable"))
  end.

Definition no_attribute (data : value) (attr : string) : exn :=
  AttributeError ("'" ++ type_name data ++ "' object has no attribute '" ++ attr ++ "'").

(** [data.get(key, default)]. *)
Definition dict_get (data : value) (key : string) (dflt : value) : exn + value :=
  match data with
  | VDict d => inr (default dflt (d !! key))
  | _ => inl (no_attribute data "get")
  end.

(** [data.items()]. *)
Definition dict_items (data : value) : exn + gmap string value :=
  match data with
  | VDict d => inr d
  | _ => inl (no_attribute data "items")
  end.

(** ** The Plant entity *)

Module Plant.

(** Modelled from the spec: the entity class [Plant] of [models.py],
    which [app.py] imports, is not among the sources.  Its mapped columns
    are the five fields of the data model; a Python attribute holds any
    value, and [id] is [None] until the storage assigns it. *)
Record t : Type := mk {
  id : value;
  name : value;
  image : value;
  price : value;
  is_in_stock : value
}.

(** The names of the mapped columns. *)
Definition is_column (key : string) : bool :=
  bool_decide (key ∈ ["id"; "name"; "image"; "price"; "is_in_stock"]).

(** Modelled from the spec: [hasattr(plant, key)] on the entity of
    [models.py].  An entity object has its five columns; it also has the
    method [to_dict] and the class attribute [query], which [app.py]
    itself uses, and [__class__], as every Python object.  What else
    [models.py] and its base class define is not visible from the
    sources and is left out. *)
Definition hasattr (key : string) : bool :=
  is_column key || bool_decide (key ∈ ["to_dict"; "query"; "__class__"]).


(** Assignment to the column [key]. *)
Definition set_column (plant : t) (key : string) (v : value) : t :=
  if decide (key = "id") then mk v (name plant) (image plant) (price plant) (is_in_stock plant)
  else if decide (key = "name") then mk (id plant) v (image plant) (price plant) (is_in_stock plant)
  else if decide (key = "image") then mk (id plant) (name plant) v (price plant) (is_in_stock plant)
  else if decide (key = "price") then mk (id plant) (name plant) (image plant) v (is_in_stock plant)
  else mk (id plant) (name plant) (image plant) (price plant) v.

(** Modelled from the spec: the method [to_dict] of [models.py], the
    dictionary form [{"id", "name", "image", "price", "is_in_stock"}]. *)
Definition to_dict (plant : t) : value :=
  VDict (<["id" := id plant]>
        (<["name" := name plant]>
        (<["image" := image plant]>
        (<["price" := price plant]>
        (<["is_in_stock" := is_in_stock plant]> ∅))))).

(** An entity object in the hands of a handler: its columns, and the
    attributes [setattr] has put in the instance beside them, which hide
    what the class defines under the same name. *)
Record object : Type := Object {
  state : t;
  own : gmap string value
}.

Definition not_a_class (v : value) : exn :=
  TypeError ("__class__ must be set to a class, not '" ++ type_name v ++ "' object").

Definition not_callable (v : value) : exn :=
  TypeError ("'" ++ type_name v ++ "' object is not callable").

(** [setattr(plant, key, v)] on a key for which [hasattr] holds.
    [__class__] accepts classes only, and a JSON value is none; a column
    is assigned; any other name becomes an attribute of the instance. *)
Definition setattr (plant : object) (key : string) (v : value) : exn + object :=
  if decide (key = "__class__")
  then inl (not_a_class v)
  else if is_column key
  then inr (Object (set_column (state plant) key v) (own plant))
  else inr (Object (state plant) (<[key := v]> (own plant))).

(** [plant.to_dict()]: the method, unless an attribute of the instance
    hides it; a JSON value cannot be called. *)
Definition call_to_dict (plant : object) : exn + value :=
  match own plant !! "to_dict" with
  | Some v => inl (not_callable v)
  | None => inr (to_dict (state plant))
  end.

End Plant.

(** ** The [plants] table and the session *)

(** A stored row: the non-key columns.  The table maps each primary key
    to its row, so that identifiers are unique by construction. *)
Record row : Type := mk_row {
  row_name : value;
  row_image : value;
  row_price : value;
  row_is_in_stock : value
}.

Definition row_of (plant : Plant.t) : row :=
  mk_row (Plant.name plant) (Plant.image plant) (Plant.price plant) (Plant.is_in_stock plant).

(** The entity object the session loads for the row stored under [pk]. *)
Definition load (pk : Z) (r : row) : Plant.t :=
  Plant.mk (VInt pk) (row_name r) (row_image r) (row_price r) (row_is_in_stock r).

(** A handler runs against the table, may raise, and leaves a table. *)
Definition M (A : Type) : Type := gmap Z row -> (exn + A) * gmap Z row.

Definition ret {A} (a : A) : M A := fun db => (inr a, db).

Definition bind {A B} (m : M A) (k : A -> M B) : M B :=
  fun db =>
    match m db with
    | (inr a, db') => k a db'
    | (inl e, db') => (inl e, db')
    end.

Definition raise {A} (e : exn) : M A := fun db => (inl e, db).

(** A pure step that may raise ([getitem], [dict_get], ...). *)
Definition lift {A} (r : exn + A) : M A := fun db => (r, db).

(** [try: body  except Exception as e: handler(e)]. *)
Definition try_except {A} (body : M A) (handler : exn -> M A) : M A :=
  fun db =>
    match body db with
    | (inr a, db') => (inr a, db')
    | (inl e, db') => handler e db'
    end.

Declare Scope plant_scope.
Delimit Scope plant_scope with plant.
Notation "'let*' x ':=' m 'in' k" := (bind m (fun x => k))
  (at level 10, x name, m at level 100, k at level 200) : plant_scope.
Notation "'do' m 'in' k" := (bind m (fun _ => k))
  (at level 10, m at level 100, k at level 200) : plant_scope.
Local Open Scope plant_scope.

(** The integers an SQLite INTEGER holds, and the driver binds. *)
Definition int64 (n : Z) : bool := bool_decide (- 2 ^ 63 <= n < 2 ^ 63).

Definition too_large : exn :=
  OverflowError "Python int too large to convert to SQLite INTEGER".

(** [Plant.query.all()]: every row, in the order the store returns them. *)
Definition query_all : M (list Plant.t) :=
  fun db => (inr ((fun kr => load kr.1 kr.2) <$> map_to_list db), db).

(** [Plant.query.filter_by(id=id).first()].  The identifier is bound as a
    parameter of the SELECT; the driver raises when it does not fit. *)
Definition query_first_by_id (id : Z) : M (option Plant.t) :=
  fun db =>
    if int64 id then (inr (load id <$> db !! id), db)
    else (inl too_large, db).

(** The largest primary key in the table, if any. *)
Definition max_rowid (db : gmap Z row) : option Z :=
  foldr (fun k acc => Some (from_option (Z.max k) k acc)) None (map_to_list db).*1.

(** Modelled from the spec: the storage assigns a new unique identifier
    on insert.  The configured store is SQLite, whose integer primary key
    takes one more than the largest key in the table, and 1 in an empty
    table (the identifier of the spec's example scenario). *)
Definition next_rowid (db : gmap Z row) : Z :=
  match max_rowid db with
  | Some m => m + 1
  | None => 1
  end.

(** [db.session.add(plant); db.session.commit()].  The INSERT gives the
    row a key when the object has none; the committed object carries it.
    Modelled from the spec: the identifier is an integer and unique, and
    a violated constraint fails the commit and stores nothing. *)
Definition session_add_commit (plant : Plant.t) : M Plant.t :=
  fun db =>
    match Plant.id plant with
    | VNone =>
        let pk := next_rowid db in
        (inr (load pk (row_of plant)), <[pk := row_of plant]> db)
    | VInt pk =>
        match db !! pk with
        | None => (inr (load pk (row_of plant)), <[pk := row_of plant]> db)
        | Some _ => (inl (IntegrityError "UNIQUE constraint failed: plants.id"), db)
        end
    | _ => (inl (IntegrityError "datatype mismatch"), db)
    end.

(** What SQLite makes of a text or of a float that is stored into an
    integer primary key: the integer it converts the value to, or nothing
    when it refuses it.  The conversion belongs to the store and not to
    the service; it is a parameter of the model. *)
Class Affinity : Type := {
  text_key : string -> option Z;
  real_key : float -> option Z
}.

Definition mismatch : exn := IntegrityError "datatype mismatch".

(** The key the store holds after the identifier [v] was written: an
    integer is bound as it is when it fits 64 bits, a boolean is the
    integer 0 or 1, a text or a float is converted by the store, and
    anything else is refused. *)
Definition rowid_of `{Affinity} (v : value) : exn + Z :=
  match v with
  | VInt n => if int64 n then inr n else inl too_large
  | VBool b => inr (if b then 1 else 0)
  | VStr s =>
      match text_key s with
      | Some n => if int64 n then inr n else inl mismatch
      | None => inl mismatch
      end
  | VFloat x =>
      match real_key x with
      | Some n => if int64 n then inr n else inl mismatch
      | None => inl mismatch
      end
  | _ => inl mismatch
  end.

(** [db.session.commit()] after the object loaded under [pk] was changed
    into [plant]: one UPDATE of the row whose key is [pk]; the object is
    then read again from its row.
    Modelled from the spec: the identifier is unique, the other fields are
    stored as they are, and a refused commit stores nothing.  The messages
    abbreviate the driver's. *)
Definition session_commit `{Affinity} (pk : Z) (plant : Plant.object) : M Plant.object :=
  fun db =>
    let r := row_of (Plant.state plant) in
    match rowid_of (Plant.id (Plant.state plant)) with
    | inl e => (inl e, db)
    | inr pk' =>
        if decide (pk' = pk)
        then (inr (Plant.Object (load pk r) (Plant.own plant)), <[pk := r]> db)
        else
          match db !! pk' with
          | None =>
              (inr (Plant.Object (load pk' r) (Plant.own plant)), <[pk' := r]> (delete pk db))
          | Some _ => (inl (IntegrityError "UNIQUE constraint failed: plants.id"), db)
          end
    end.

(** [db.session.delete(plant); db.session.commit()]. *)
Definition session_delete_commit (plant : Plant.t) : M unit :=
  fun db =>
    match Plant.id plant with
    | VInt pk => (inr tt, delete pk db)
    | _ => (inr tt, db)
    end.

(** ** Requests and responses *)

(** The body of a request as [request.get_json()] finds it: JSON data, or
    something it refuses (no body, a wrong content type, malformed JSON)
    with the message of the exception it raises. *)
Inductive payload : Type :=
| NotJson (msg : string)
| Json (data : value).

(** [request.get_json()]. *)
Definition get_json (request : payload) : M value :=
  match request with
  | Json data => ret data
  | NotJson msg => raise (HTTPException msg)
  end.

(** A response body: JSON data ([jsonify]) or plain text. *)
Inductive content : Type :=
| JSON (v : value)
| Text (s : string).

Record response : Type := make_response {
  body : content;
  status : Z
}.

Definition jsonify (v : value) : content := JSON v.

(** [{"error": "Plant not found"}]. *)
Definition plant_not_found : value :=
  VDict {[ "error" := VStr "Plant not found" ]}.

(** [{"errors": [str(e)]}]. *)
Definition errors_of (e : exn) : value :=
  VDict {[ "errors" := VList [VStr (str e)] ]}.

(** The [404] error handler, [not_found]. *)
Definition not_found : response :=
  make_response (jsonify plant_not_found) 404.

(** ** The handlers *)

(** [class Plants(Resource)], routed at [/plants]. *)
Module Plants.

Definition get : M response :=
  let* all := query_all in
  let plants := Plant.to_dict <$> all in
  ret (make_response (jsonify (VList plants)) 200).

Definition post (request : payload) : M response :=
  try_except
    (let* data := get_json request in
     let* name := lift (getitem data "name") in
     let* image := lift (getitem data "image") in
     let* price := lift (getitem data "price") in
     let* is_in_stock := lift (dict_get data "is_in_stock" (VBool true)) in
     let new_plant := Plant.mk VNone name image price is_in_stock in
     let* new_plant := session_add_commit new_plant in
     ret (make_response (jsonify (Plant.to_dict new_plant)) 201))
    (fun e => ret (make_response (jsonify (errors_of e)) 400)).

End Plants.

(** The loop of [patch]: [setattr] for every item whose key [hasattr];
    an exception ends it. *)
Definition update_attributes (items : gmap string value) (plant : Plant.object)
  : exn + Plant.object :=
  map_fold
    (fun key v acc =>
       match acc with
       | inl e => inl e
       | inr plant => if Plant.hasattr key then Plant.setattr plant key v else inr plant
       end)
    (inr plant) items.

(** [class PlantByID(Resource)], routed at [/plants/<int:id>]. *)
Module PlantByID.

Definition get (id : Z) : M response :=
  let* plant := query_first_by_id id in
  match plant with
  | Some plant => ret (make_response (jsonify (Plant.to_dict plant)) 200)
  | None => ret (make_response (jsonify plant_not_found) 404)
  end.

Definition patch `{Affinity} (id : Z) (request : payload) : M response :=
  let* plant := query_first_by_id id in
  match plant with
  | None => ret (make_response (jsonify plant_not_found) 404)
  | Some plant =>
      try_except
        (let* data := get_json request in
         let* items := lift (dict_items data) in
         let* plant := lift (update_attributes items (Plant.Object plant ∅)) in
         let* plant := session_commit id plant in
         let* dict := lift (Plant.call_to_dict plant) in
         ret (make_response (jsonify dict) 200))
        (fun e => ret (make_response (jsonify (errors_of e)) 400))
  end.

Definition delete (id : Z) : M response :=
  let* plant := query_first_by_id id in
  match plant with
  | None => ret (make_response (jsonify plant_not_found) 404)
  | Some plant =>
      do session_delete_commit plant in
      ret (make_response (Text "") 204)
  end.

End PlantByID.

(** ** Routing *)

(** A request to [/plants] or to [/plants/] followed by an integer
    literal, signed or not. *)
Inductive request : Type :=
| GET_plants
| POST_plants (data : payload)
| GET_plant (id : Z)
| PATCH_plant (id : Z) (data : payload)
| DELETE_plant (id : Z).

(** The rule [/plants/<int:id>] of [api.add_resource]: the converter
    matches unsigned digits only.  A path that matches no rule is
    answered by the 404 error handler, [not_found]. *)
Definition route (id : Z) (view : Z -> M response) : M response :=
  if decide (0 <= id) then view id else ret not_found.

Definition dispatch `{Affinity} (r : request) : M response :=
  match r with
  | GET_plants => Plants.get
  | POST_plants data => Plants.post data
  | GET_plant id => route id PlantByID.get
  | PATCH_plant id data => route id (fun id => PlantByID.patch id data)
  | DELETE_plant id => route id PlantByID.delete
  end.

(** One request against the table: the response and the table it leaves.
    An exception that escapes a handler is the hosting layer's [500]. *)
Definition serve `{Affinity} (db : gmap Z row) (r : request) : response * gmap Z row :=
  match dispatch r db with
  | (inr resp, db') => (resp, db')
  | (inl e, db') => (make_response (Text "Internal Server Error") 500, db')
  end.

(** The table after a sequence of requests. *)
Definition serve_all `{Affinity} (db : gmap Z row) (rs : list request) : gmap Z row :=
  foldl (fun db r => (serve db r).2) db rs.

(** ** Predicates of the statements *)


Definition has_key (key : string) (data : payload) : bool :=
  match data with
  | Json (VDict d) => bool_decide (is_Some (d !! key))
  | _ => false
  end.


(** The columns after a body was applied to them: each column named in the
    body takes the body's value, the others keep theirs. *)
Definition patched (d : gmap string value) (plant : Plant.t) : Plant.t :=
  Plant.mk (default (Plant.id plant) (d !! "id"))
           (default (Plant.name plant) (d !! "name"))
           (default (Plant.image plant) (d !! "image"))
           (default (Plant.price plant) (d !! "price"))
           (default (Plant.is_in_stock plant) (d !! "is_in_stock")).

(** The items of a body that become attributes of the instance. *)
Definition own_attributes (d : gmap string value) : gmap string value :=
  filter (fun kv => Plant.hasattr kv.1 = true /\ Plant.is_column kv.1 = false) d.

(** A PATCH whose body is an object with the key [id]. *)
Definition sets_id (req : request) : bool :=
  match req with
  | PATCH_plant _ (Json (VDict d)) => bool_decide (is_Some (d !! "id"))
  | _ => false
  end.

(** Every key of the body that matches an attribute names a column. *)
Definition columns_only (d : gmap string value) : bool :=
  bool_decide
    (map_Forall (fun key _ => Plant.hasattr key = true -> Plant.is_column key = true) d).

(** The request is not a PATCH whose body has a key that matches another
    attribute than a column. *)
Definition patches_columns_only (req : request) : bool :=
  match req with
  | PATCH_plant _ (Json (VDict d)) => columns_only d
  | _ => true
  end.

(** The request leaves every stored record under its identifier: a record
    stored before it either is removed by the DELETE of its identifier, or
    is stored unchanged under the same identifier, or is the target of the
    PATCH and is still stored under its identifier while the table holds
    the same identifiers as before. *)
Definition keeps_ids `{Affinity} (db : gmap Z row) (req : request) : Prop :=
  forall (id : Z) (r : row),
    db !! id = Some r ->
    req = DELETE_plant id
    \/ (serve db req).2 !! id = Some r
    \/ ((exists data, req = PATCH_plant id data)
        /\ is_Some ((serve db req).2 !! id)
        /\ dom (serve db req).2 = dom db).

(** The first key that [post] reads and the body does not have, in the
    order the constructor call [Plant(name=..., image=..., price=...)]
    evaluates [data['name']], [data['image']], [data['price']]. *)
Definition first_missing (d : gmap string value) : option string :=
  match d !! "name", d !! "image", d !! "price" with
  | None, _, _ => Some "name"
  | Some _, None, _ => Some "image"
  | Some _, Some _, None => Some "price"
  | Some _, Some _, Some _ => None
  end.

(** The body is JSON and its top level is an object. *)
Definition is_object (data : payload) : bool :=
  match data with
  | Json (VDict _) => true
  | _ => false
  end.

(** ** Sample data *)

(** A store for the examples: a text is a key when it is a decimal
    integer literal, a float when its value is an integer. *)
Fixpoint digits (acc : Z) (s : string) : option Z :=
  match s with
  | EmptyString => Some acc
  | String c s' =>
      let n := Z.of_nat (Ascii.nat_of_ascii c) - 48 in
      if bool_decide (0 <= n <= 9) then digits (10 * acc + n) s' else None
  end.

Definition decimal (s : string) : option Z :=
  match s with
  | EmptyString => None
  | String c s' =>
      if bool_decide (Ascii.nat_of_ascii c = 45%nat)
      then match s' with EmptyString => None | _ => Z.opp <$> digits 0 s' end
      else digits 0 s
  end.

Definition integral (x : float) : option Z :=
  match Prim2SF x with
  | S754_zero _ => Some 0
  | S754_finite s m e =>
      let n := if bool_decide (0 <= e) then Some (Z.pos m * 2 ^ e)
               else if bool_decide (Z.pos m mod 2 ^ (- e) = 0)
                    then Some (Z.pos m / 2 ^ (- e)) else None in
      (fun n => if s then - n else n) <$> n
  | _ => None
  end.

Definition sample_affinity : Affinity :=
  {| text_key := decimal; real_key := integral |}.

(** The payload of the example scenario. *)
Definition aloe_items : gmap string value :=
  {[ "name" := VStr "Aloe"; "image" := VStr "aloe.jpg"; "price" := VInt 15 ]}.

Definition aloe : value := VDict aloe_items.

Definition aloe_row : row := mk_row (VStr "Aloe") (VStr "aloe.jpg") (VInt 15) (VBool true).

Definition fern_row : row := mk_row (VStr "Fern") (VStr "fern.jpg") (VInt 9) (VBool true).

Definition two_plants : gmap Z row := {[ 1 := aloe_row; 2 := fern_row ]}.

(** The payload that creates the fern. *)
Definition fern : value :=
  VDict {[ "name" := VStr "Fern"; "image" := VStr "fern.jpg"; "price" := VInt 9 ]}.

(** A body that gives the record a negative identifier, and the table
    with the fern stored under it. *)
Definition id_minus_5 : value := VDict {[ "id" := VInt (-5) ]}.

Definition moved_plant : gmap Z row := {[ -5 := fern_row ]}.

(** The requests that lead from the empty table to [moved_plant]. *)
Definition move_plant : list request :=
  [POST_plants (Json fern); PATCH_plant 1 (Json id_minus_5)].

(** A body with a key that names no attribute of the entity. *)
Definition green_name : gmap string value :=
  {[ "color" := VStr "green"; "name" := VStr "Aloe vera" ]}.

(** A body with such a key and the identifier of another stored record. *)
Definition green_id_2 : gmap string value :=
  {[ "color" := VStr "green"; "id" := VInt 2 ]}.

(** A body that hides the method [to_dict] and renames the record. *)
Definition hidden_to_dict : gmap string value :=
  {[ "to_dict" := VInt 1; "name" := VStr "X" ]}.

(** ** Facts about the storage model *)

Section Service.

Context `{Affinity}.

Lemma max_rowid_upper (keys : list Z) (k : Z) :
  k ∈ keys ->
  exists m, foldr (fun k acc => Some (from_option (Z.max k) k acc)) None keys = Some m /\ k <= m.
Proof.
  induction keys as [|k' keys IH]; intros Hin.
  - inversion Hin.
  - apply elem_of_cons in Hin. simpl.
    destruct Hin as [->|Hin].
    + eexists; split; [reflexivity|].
      destruct (foldr _ None keys); simpl; lia.
    + destruct (IH Hin) as (m & -> & Hle).
      eexists; split; [reflexivity|]. simpl. lia.
Qed.

(** The key an INSERT allocates is not in use. *)
Lemma next_rowid_fresh (db : gmap Z row) : db !! next_rowid db = None.
Proof.
  destruct (db !! next_rowid db) as [r|] eqn:Hlook; [|reflexivity].
  exfalso.
  assert (Hin : next_rowid db ∈ (map_to_list db).*1).
  { apply list_elem_of_fmap. exists (next_rowid db, r).
    split; [reflexivity|]. by apply elem_of_map_to_list. }
  apply max_rowid_upper in Hin as (m & Hm & Hle).
  unfold next_rowid, max_rowid in Hle. rewrite Hm in Hle. lia.
Qed.

Lemma row_of_load (pk : Z) (r : row) : row_of (load pk r) = r.
Proof. by destruct r. Qed.

Lemma load_row_of (plant : Plant.t) (pk : Z) :
  Plant.id plant = VInt pk -> load pk (row_of plant) = plant.
Proof. destruct plant. simpl. by intros ->. Qed.

Lemma size_delete_stored (db : gmap Z row) (id : Z) (r : row) :
  db !! id = Some r -> size db = S (size (delete id db)).
Proof.
  intros Hr. rewrite <-(insert_delete_id db id r Hr) at 1.
  by rewrite map_size_insert_None by apply lookup_delete_eq.
Qed.

(** An identifier the route accepts and the store can hold is bound. *)
Lemma int64_routable (id : Z) : 0 <= id < 2 ^ 63 -> int64 id = true.
Proof. intros Hid. apply bool_decide_eq_true. lia. Qed.

Lemma int64_oversize (id : Z) : 2 ^ 63 <= id -> int64 id = false.
Proof. intros Hid. apply bool_decide_eq_false. lia. Qed.

Lemma rowid_of_routable (id : Z) : 0 <= id < 2 ^ 63 -> rowid_of (VInt id) = inr id.
Proof. intros Hid. simpl. by rewrite int64_routable. Qed.

(** ** Facts about the update loop of [patch] *)

Lemma is_column_cases (key : string) :
  Plant.is_column key = true ->
  key = "id" \/ key = "name" \/ key = "image" \/ key = "price" \/ key = "is_in_stock".
Proof.
  unfold Plant.is_column. rewrite bool_decide_eq_true.
  intros Hin. apply list_elem_of_In in Hin. simpl in Hin.
  destruct Hin as [<-|[<-|[<-|[<-|[<-|[]]]]]]; tauto.
Qed.

Lemma not_column_ne (key : string) :
  Plant.is_column key = false ->
  key <> "id" /\ key <> "name" /\ key <> "image" /\ key <> "price" /\ key <> "is_in_stock".
Proof. intros Hkey. repeat split; intros ->; discriminate Hkey. Qed.

Lemma patched_empty (plant : Plant.t) : patched ∅ plant = plant.
Proof. unfold patched. rewrite !lookup_empty. by destruct plant. Qed.

Lemma patched_insert_column (m : gmap string value) (plant : Plant.t) (key : string) (v : value) :
  Plant.is_column key = true ->
  patched (<[key := v]> m) plant = Plant.set_column (patched m plant) key v.
Proof.
  intros Hkey. unfold patched.
  destruct (is_column_cases key Hkey) as [->|[->|[->|[->| ->]]]];
    rewrite lookup_insert_eq, !lookup_insert_ne by done; reflexivity.
Qed.

Lemma patched_insert_other (m : gmap string value) (plant : Plant.t) (key : string) (v : value) :
  Plant.is_column key = false -> patched (<[key := v]> m) plant = patched m plant.
Proof.
  intros Hkey. destruct (not_column_ne key Hkey) as (? & ? & ? & ? & ?).
  unfold patched. by rewrite !lookup_insert_ne.
Qed.

(** The body applied twice gives what it gives applied once. *)
Lemma patched_twice (d : gmap string value) (plant : Plant.t) :
  patched d (patched d plant) = patched d plant.
Proof.
  unfold patched. simpl.
  by destruct (d !! "id"), (d !! "name"), (d !! "image"), (d !! "price"),
    (d !! "is_in_stock").
Qed.

Lemma patched_id (d : gmap string value) (plant : Plant.t) :
  d !! "id" = None -> Plant.id (patched d plant) = Plant.id plant.
Proof. intros Hd. unfold patched. simpl. by rewrite Hd. Qed.


Lemma own_attributes_lookup (d : gmap string value) (key : string) :
  Plant.hasattr key = true -> Plant.is_column key = false ->
  own_attributes d !! key = d !! key.
Proof.
  intros Hattr Hcol. unfold own_attributes. rewrite map_lookup_filter.
  destruct (d !! key) as [v|]; [|done].
  simpl. by rewrite option_guard_True.
Qed.

Lemma columns_only_lookup (d : gmap string value) (key : string) :
  columns_only d = true -> Plant.hasattr key = true -> Plant.is_column key = false ->
  d !! key = None.
Proof.
  intros Hcols Hattr Hcol. apply bool_decide_eq_true in Hcols.
  destruct (d !! key) as [v|] eqn:Hv; [|done].
  specialize (Hcols key v Hv Hattr). congruence.
Qed.

(** What the loop of [patch] leaves: an exception when the body has the
    key [__class__], and otherwise the columns as [patched] describes them
    and the other matching items as attributes of the instance. *)
Lemma update_attributes_spec (d : gmap string value) (plant : Plant.t) :
  update_attributes d (Plant.Object plant ∅)
  = match d !! "__class__" with
    | Some v => inl (Plant.not_a_class v)
    | None => inr (Plant.Object (patched d plant) (own_attributes d))
    end.
Proof.
  unfold update_attributes.
  apply (map_fold_weak_ind
           (fun acc (m : gmap string value) =>
              acc = match m !! "__class__" with
                    | Some v => inl (Plant.not_a_class v)
                    | None => inr (Plant.Object (patched m plant) (own_attributes m))
                    end)).
  - rewrite lookup_empty, patched_empty. unfold own_attributes.
    by rewrite map_filter_empty.
  - intros key v m acc Hfresh ->.
    destruct (decide (key = "__class__")) as [->|Hne].
    + rewrite Hfresh, lookup_insert_eq. reflexivity.
    + rewrite lookup_insert_ne by done.
      destruct (m !! "__class__") as [w|]; [reflexivity|].
      destruct (Plant.hasattr key) eqn:Hattr.
      * unfold Plant.setattr. rewrite decide_False by done. simpl.
        destruct (Plant.is_column key) eqn:Hcol.
        -- rewrite patched_insert_column by done. unfold own_attributes.
           rewrite map_filter_insert_not; [done|].
           intros y [_ Hy]. simpl in Hy. congruence.
        -- rewrite patched_insert_other by done. unfold own_attributes.
           by rewrite map_filter_insert_True.
      * assert (Hcol : Plant.is_column key = false).
        { unfold Plant.hasattr in Hattr. by apply orb_false_iff in Hattr as [? _]. }
        rewrite patched_insert_other by done. unfold own_attributes.
        rewrite map_filter_insert_not; [done|].
        intros y [Hy _]. simpl in Hy. congruence.
Qed.

(** ** What the handlers compute *)

Ltac run_handler :=
  unfold serve, dispatch, route, Plants.get, Plants.post, PlantByID.get,
    PlantByID.patch, PlantByID.delete, get_json, query_first_by_id,
    query_all, try_except, bind, lift, raise, ret;
  cbn beta iota.

(** What [GET /plants] answers. *)
Lemma get_plants_eq (db : gmap Z row) :
  serve db GET_plants
  = (make_response
       (jsonify (VList (Plant.to_dict <$> ((fun kr => load kr.1 kr.2) <$> map_to_list db))))
       200, db).
Proof. by run_handler. Qed.

(** A path with a negative number matches no rule. *)
Lemma item_unrouted (db : gmap Z row) (id : Z) (data : payload) :
  id < 0 ->
  serve db (GET_plant id) = (not_found, db)
  /\ serve db (PATCH_plant id data) = (not_found, db)
  /\ serve db (DELETE_plant id) = (not_found, db).
Proof.
  intros Hid. repeat split; run_handler; by rewrite decide_False by lia.
Qed.

(** An identifier beyond 64 bits fails the lookup, outside any [try]. *)
Lemma item_oversize (db : gmap Z row) (id : Z) (data : payload) :
  2 ^ 63 <= id ->
  serve db (GET_plant id) = (make_response (Text "Internal Server Error") 500, db)
  /\ serve db (PATCH_plant id data) = (make_response (Text "Internal Server Error") 500, db)
  /\ serve db (DELETE_plant id) = (make_response (Text "Internal Server Error") 500, db).
Proof.
  intros Hid. pose proof (int64_oversize id Hid) as Hbig.
  repeat split; run_handler; rewrite decide_True by lia; by rewrite Hbig.
Qed.

(** An identifier that fits 64 bits and is not stored. *)
Lemma item_missing (db : gmap Z row) (id : Z) (data : payload) :
  id < 2 ^ 63 -> db !! id = None ->
  serve db (GET_plant id) = (not_found, db)
  /\ serve db (PATCH_plant id data) = (not_found, db)
  /\ serve db (DELETE_plant id) = (not_found, db).
Proof.
  intros Hid Hmiss. destruct (decide (0 <= id)) as [Hpos|Hneg].
  - repeat split; run_handler; rewrite decide_True by done;
      rewrite (int64_routable id) by lia; by rewrite Hmiss.
  - apply item_unrouted. lia.
Qed.

(** Requests that find nothing, or fail at the lookup, change nothing. *)
Lemma item_table (db : gmap Z row) (id : Z) (data : payload) :
  ~ (0 <= id < 2 ^ 63 /\ is_Some (db !! id)) ->
  (serve db (GET_plant id)).2 = db
  /\ (serve db (PATCH_plant id data)).2 = db
  /\ (serve db (DELETE_plant id)).2 = db.
Proof.
  intros Hnot. destruct (decide (id < 2 ^ 63)) as [Hfit|Hbig].
  - destruct (decide (0 <= id)) as [Hpos|Hneg].
    + destruct (db !! id) as [r|] eqn:Hr.
      { destruct Hnot. split; [lia|by eexists]. }
      destruct (item_missing db id data Hfit Hr) as (-> & -> & ->). done.
    + destruct (item_unrouted db id data) as (-> & -> & ->); [lia|done].
  - destruct (item_oversize db id data) as (-> & -> & ->); [lia|done].
Qed.

(** [GET /plants/{id}] never changes the table. *)
Lemma get_plant_table (db : gmap Z row) (id : Z) : (serve db (GET_plant id)).2 = db.
Proof.
  run_handler. destruct (decide (0 <= id)); [|done].
  destruct (int64 id); [|done]. by destruct (db !! id).
Qed.

Section Stored.

Variables (db : gmap Z row) (id : Z) (r : row).
Hypothesis routable : 0 <= id < 2 ^ 63.
Hypothesis stored : db !! id = Some r.

(** [GET /plants/{id}] on a stored row. *)
Lemma get_found :
  serve db (GET_plant id)
  = (make_response (jsonify (Plant.to_dict (load id r))) 200, db).
Proof using routable stored.
  run_handler. rewrite decide_True by lia.
  by rewrite int64_routable, stored.
Qed.

(** [DELETE /plants/{id}] on a stored row. *)
Lemma delete_found :
  serve db (DELETE_plant id) = (make_response (Text "") 204, delete id db).
Proof using routable stored.
  run_handler. rewrite decide_True by lia.
  by rewrite int64_routable, stored.
Qed.

(** [PATCH /plants/{id}] on a stored row with a body that is not an
    object. *)
Lemma patch_not_object (data : payload) :
  is_object data = false ->
  exists msg : string,
    serve db (PATCH_plant id data)
    = (make_response (jsonify (VDict {[ "errors" := VList [VStr msg] ]})) 400, db).
Proof using routable stored.
  intros Hobj.
  destruct data as [msg|data];
    [run_handler; rewrite decide_True by lia;
     rewrite int64_routable, stored by done; by eexists|].
  destruct data as [| | | | | |d]; [..|discriminate Hobj];
    run_handler; rewrite decide_True by lia;
    rewrite int64_routable, stored by done; by eexists.
Qed.

(** [PATCH /plants/{id}] on a stored row with an object: the loop, the
    commit, and the call of [to_dict]. *)
Lemma patch_object (d : gmap string value) :
  serve db (PATCH_plant id (Json (VDict d)))
  = match d !! "__class__" with
    | Some v => (make_response (jsonify (errors_of (Plant.not_a_class v))) 400, db)
    | None =>
        match session_commit id (Plant.Object (patched d (load id r)) (own_attributes d)) db with
        | (inl e, db') => (make_response (jsonify (errors_of e)) 400, db')
        | (inr plant, db') =>
            match Plant.call_to_dict plant with
            | inl e => (make_response (jsonify (errors_of e)) 400, db')
            | inr dict => (make_response (jsonify dict) 200, db')
            end
        end
    end.
Proof using routable stored.
  run_handler. rewrite decide_True by lia.
  rewrite int64_routable, stored by done. simpl.
  rewrite update_attributes_spec.
  destruct (d !! "__class__") as [v|]; [reflexivity|].
  destruct (session_commit id _ db) as [[e|plant] db']; [reflexivity|].
  by destruct (Plant.call_to_dict plant).
Qed.

(** The same when the body leaves the identifier alone: the row is
    rewritten in place. *)
Lemma patch_in_place (d : gmap string value) :
  d !! "id" = None -> d !! "__class__" = None ->
  let plant := patched d (load id r) in
  serve db (PATCH_plant id (Json (VDict d)))
  = (match d !! "to_dict" with
     | Some v => make_response (jsonify (errors_of (Plant.not_callable v))) 400
     | None => make_response (jsonify (Plant.to_dict plant)) 200
     end, <[id := row_of plant]> db).
Proof using routable stored.
  intros Hid Hclass plant. rewrite patch_object, Hclass.
  unfold session_commit. cbn [Plant.state Plant.own].
  rewrite patched_id by done. cbn [load Plant.id].
  rewrite rowid_of_routable by done. rewrite decide_True by done.
  unfold Plant.call_to_dict. cbn [Plant.state Plant.own].
  rewrite own_attributes_lookup by done.
  destruct (d !! "to_dict") as [v|]; [reflexivity|].
  fold plant. rewrite load_row_of; [done|].
  unfold plant. by rewrite patched_id.
Qed.

(** The two ways [PATCH /plants/{id}] ends on a stored row: refused with
    the table as it was, or committed, with the row stored under the key
    the store read from the identifier. *)
Lemma patch_cases (data : payload) :
  (exists msg : string,
      serve db (PATCH_plant id data)
      = (make_response (jsonify (VDict {[ "errors" := VList [VStr msg] ]})) 400, db))
  \/ (exists (d : gmap string value) (id' : Z),
        data = Json (VDict d)
        /\ d !! "__class__" = None
        /\ rowid_of (Plant.id (patched d (load id r))) = inr id'
        /\ (id' = id \/ db !! id' = None)
        /\ let r' := row_of (patched d (load id r)) in
           serve db (PATCH_plant id data)
           = (match d !! "to_dict" with
              | Some v => make_response (jsonify (errors_of (Plant.not_callable v))) 400
              | None => make_response (jsonify (Plant.to_dict (load id' r'))) 200
              end, <[id' := r']> (delete id db))).
Proof using routable stored.
  destruct (is_object data) eqn:Hobj; [|left; by apply patch_not_object].
  destruct data as [msg|[| | | | | |d]]; try discriminate Hobj.
  rewrite patch_object.
  destruct (d !! "__class__") as [v|] eqn:Hclass; [left; by eexists|].
  unfold session_commit. cbn [Plant.state Plant.own].
  destruct (rowid_of (Plant.id (patched d (load id r)))) as [e|id'] eqn:Hkey;
    [left; by eexists|].
  unfold Plant.call_to_dict. cbn [Plant.state Plant.own].
  destruct (decide (id' = id)) as [->|Hne].
  - right. exists d, id. repeat (split; [done|]). split; [by left|].
    cbv zeta. cbn [Plant.state Plant.own].
    rewrite own_attributes_lookup by done. rewrite insert_delete_eq.
    by destruct (d !! "to_dict").
  - destruct (db !! id') as [r0|] eqn:Hr0; [left; by eexists|].
    right. exists d, id'. repeat (split; [done|]). split; [by right|].
    cbv zeta. cbn [Plant.state Plant.own].
    rewrite own_attributes_lookup by done.
    by destruct (d !! "to_dict").
Qed.

End Stored.

(** [POST /plants] on an object that has the three required keys. *)
Lemma post_object (db : gmap Z row) (d : gmap string value) (name image price : value) :
  d !! "name" = Some name -> d !! "image" = Some image -> d !! "price" = Some price ->
  let r := mk_row name image price (default (VBool true) (d !! "is_in_stock")) in
  serve db (POST_plants (Json (VDict d)))
  = (make_response (jsonify (Plant.to_dict (load (next_rowid db) r))) 201,
     <[next_rowid db := r]> db).
Proof.
  intros Hn Hi Hp. run_handler.
  unfold getitem, dict_get. rewrite Hn, Hi, Hp. reflexivity.
Qed.

(** The two ways [POST /plants] ends. *)
Lemma post_cases (db : gmap Z row) (data : payload) :
  (exists msg : string,
      serve db (POST_plants data)
      = (make_response (jsonify (VDict {[ "errors" := VList [VStr msg] ]})) 400, db))
  \/ (exists (d : gmap string value) (name image price : value),
        data = Json (VDict d)
        /\ d !! "name" = Some name /\ d !! "image" = Some image
        /\ d !! "price" = Some price
        /\ let r := mk_row name image price (default (VBool true) (d !! "is_in_stock")) in
           serve db (POST_plants data)
           = (make_response (jsonify (Plant.to_dict (load (next_rowid db) r))) 201,
              <[next_rowid db := r]> db)).
Proof.
  destruct data as [msg|data]; [left; run_handler; by eexists|].
  destruct data as [| | | | | |d]; try (left; run_handler; by eexists).
  destruct (d !! "name") as [name|] eqn:Hn;
    [|left; run_handler; unfold getitem; rewrite Hn; by eexists].
  destruct (d !! "image") as [image|] eqn:Hi;
    [|left; run_handler; unfold getitem; rewrite Hn, Hi; by eexists].
  destruct (d !! "price") as [price|] eqn:Hp;
    [|left; run_handler; unfold getitem; rewrite Hn, Hi, Hp; by eexists].
  right. exists d, name, image, price.
  repeat (split; [done|]). by apply post_object.
Qed.

Lemma elem_of_listing (db : gmap Z row) (v : value) :
  v ∈ Plant.to_dict <$> ((fun kr => load kr.1 kr.2) <$> map_to_list db)
  <-> exists (id : Z) (r : row), db !! id = Some r /\ v = Plant.to_dict (load id r).
Proof.
  rewrite list_elem_of_fmap. split.
  - intros (plant & -> & Hin). apply list_elem_of_fmap in Hin as ([id r] & -> & Hin).
    apply elem_of_map_to_list in Hin. by exists id, r.
  - intros (id & r & Hr & ->). exists (load id r). split; [done|].
    apply list_elem_of_fmap. exists (id, r). split; [done|].
    by apply elem_of_map_to_list.
Qed.

(** ** Creation *)


(** C5: a POST whose body lacks the key name is answered 400 with
    [{"errors": [msg]}], a non-empty array, and the table is left as it
    was. *)
Theorem post_without_name (db : gmap Z row) (data : payload) :
  has_key "name" data = false ->
  exists msg : string,
    serve db (POST_plants data)
    = (make_response (jsonify (VDict {[ "errors" := VList [VStr msg] ]})) 400, db).
Proof.
  intros Hkey. run_handler.
  destruct data as [msg|data]; [by eexists|].
  destruct data as [| | | | | |d]; try by eexists.
  simpl in Hkey. apply bool_decide_eq_false in Hkey.
  unfold getitem.
  destruct (d !! "name") as [v|]; [|by eexists].
  destruct Hkey. by eexists.
Qed.

(** ** Reading *)

(** C6: after any sequence of requests, from any table, GET /plants is
    answered 200 with an array of as many elements as the table has rows;
    on the empty table the array is empty. *)
Theorem get_plants_length (db0 : gmap Z row) (rs : list request) :
  (exists plants : list value,
      serve (serve_all db0 rs) GET_plants
      = (make_response (jsonify (VList plants)) 200, serve_all db0 rs)
      /\ length plants = size (serve_all db0 rs))
  /\ serve ∅ GET_plants = (make_response (jsonify (VList [])) 200, ∅).
Proof.
  split.
  - generalize (serve_all db0 rs) as db. intros db.
    run_handler. eexists. split; [reflexivity|].
    by rewrite !length_fmap, length_map_to_list.
  - run_handler. by rewrite map_to_list_empty.
Qed.

(** C8: neither GET changes the table. *)
Theorem get_leaves_table (db : gmap Z row) (id : Z) :
  (serve db GET_plants).2 = db /\ (serve db (GET_plant id)).2 = db.
Proof.
  split; [by run_handler|]. apply get_plant_table.
Qed.

(** ** Identifiers that are not stored *)

(** C3, at the failing input: on an identifier of 2^63 or more, which no
    table of the store holds, GET, PATCH with any body and DELETE are
    answered 500 and leave the table as it was: the lookup raises outside
    any [try]. *)
Theorem oversize_id_server_error (db : gmap Z row) (id : Z) (data : payload) :
  2 ^ 63 <= id ->
  (status (serve db (GET_plant id)).1 = 500
   /\ status (serve db (PATCH_plant id data)).1 = 500
   /\ status (serve db (DELETE_plant id)).1 = 500)
  /\ (serve db (GET_plant id)).2 = db
  /\ (serve db (PATCH_plant id data)).2 = db
  /\ (serve db (DELETE_plant id)).2 = db.
Proof.
  intros Hid. destruct (item_oversize db id data Hid) as (-> & -> & ->). done.
Qed.

(** ** Stored records the route can address *)

Section Existing.

Variables (db : gmap Z row) (id : Z) (r : row).
Hypothesis routable : 0 <= id < 2 ^ 63.
Hypothesis stored : db !! id = Some r.

(** C7, amended: DELETE on a stored identifier that the route accepts is
    answered 204 with an empty body, and GET on that identifier is then
    answered 404. *)
Theorem delete_then_get :
  exists db' : gmap Z row,
    serve db (DELETE_plant id) = (make_response (Text "") 204, db')
    /\ serve db' (GET_plant id) = (not_found, db').
Proof using routable stored.
  exists (delete id db). split.
  - by apply (delete_found db id r).
  - apply (item_missing _ id (NotJson "")); [lia|apply lookup_delete_eq].
Qed.

(** C4, amended: PATCH with [{"is_in_stock": false}] on a stored row whose
    identifier the route accepts is answered 200 with the record whose
    is_in_stock is false and whose id, name, image and price are the
    stored ones; the table changes at that row only, and there only in
    is_in_stock. *)
Theorem patch_is_in_stock_false :
  let r' := mk_row (row_name r) (row_image r) (row_price r) (VBool false) in
  serve db (PATCH_plant id (Json (VDict {[ "is_in_stock" := VBool false ]})))
  = (make_response (jsonify (Plant.to_dict (load id r'))) 200, <[id := r']> db)
  /\ forall id' : Z, id' <> id -> <[id := r']> db !! id' = db !! id'.
Proof using routable stored.
  intros r'. split.
  - by rewrite (patch_in_place db id r routable stored).
  - intros id' Hne. by rewrite lookup_insert_ne.
Qed.

(** C10, amended: PATCH with [{}] on a stored row whose identifier the
    route accepts is answered 200 with the record's dictionary form as GET
    gives it, and the table is left as it was. *)
Theorem patch_empty_object :
  serve db (PATCH_plant id (Json (VDict ∅)))
  = (make_response (jsonify (Plant.to_dict (load id r))) 200, db)
  /\ serve db (PATCH_plant id (Json (VDict ∅))) = serve db (GET_plant id).
Proof using routable stored.
  assert (Hpatch : serve db (PATCH_plant id (Json (VDict ∅)))
                   = (make_response (jsonify (Plant.to_dict (load id r))) 200, db)).
  { rewrite (patch_in_place db id r routable stored) by done.
    cbv zeta. rewrite lookup_empty, patched_empty.
    by rewrite row_of_load, insert_id. }
  split; [exact Hpatch|].
  by rewrite Hpatch, (get_found db id r routable stored).
Qed.


End Existing.

(** ** Identifiers across requests *)

(** [POST /plants] never touches a stored row. *)
Lemma post_table (db : gmap Z row) (data : payload) :
  (serve db (POST_plants data)).2 = db
  \/ exists r, (serve db (POST_plants data)).2 = <[next_rowid db := r]> db.
Proof.
  destruct (post_cases db data) as [[msg ->]|(d & n & i & p & _ & _ & _ & _ & ->)];
    [by left|right; by eexists].
Qed.

(** C2, amended: a request that is not a PATCH with the key id in its body
    leaves every stored record under its identifier. *)
Theorem id_kept_unless_patched (db : gmap Z row) (req : request) :
  sets_id req = false -> keeps_ids db req.
Proof.
  intros Hreq id r Hr.
  destruct req as [|data|id0|id0 data|id0].
  - right; left. by run_handler.
  - right; left. destruct (post_table db data) as [->|[r' ->]]; [done|].
    rewrite lookup_insert_ne; [done|].
    intros Heq. pose proof (next_rowid_fresh db). congruence.
  - right; left. by rewrite get_plant_table.
  - destruct (decide (0 <= id0 < 2 ^ 63 /\ is_Some (db !! id0))) as [[Hroute [r0 Hr0]]|Hnot].
    + destruct (is_object data) eqn:Hobj.
      * destruct data as [msg|[| | | | | |d]]; try discriminate Hobj.
        simpl in Hreq. apply bool_decide_eq_false in Hreq.
        assert (Hd : d !! "id" = None).
        { destruct (d !! "id") eqn:E; [|done]. destruct Hreq. by eexists. }
        destruct (d !! "__class__") as [v|] eqn:Hclass.
        -- rewrite (patch_object db id0 r0 Hroute Hr0), Hclass. by right; left.
        -- rewrite (patch_in_place db id0 r0 Hroute Hr0) by done. simpl.
           destruct (decide (id = id0)) as [->|Hne].
           ++ right; right. split; [by eexists|].
              split; [rewrite lookup_insert_eq; by eexists|].
              apply dom_insert_lookup_L. by eexists.
           ++ right; left. by rewrite lookup_insert_ne.
      * destruct (patch_not_object db id0 r0 Hroute Hr0 data Hobj) as [msg ->].
        by right; left.
    + right; left. by rewrite (proj1 (proj2 (item_table db id0 data Hnot))).
  - destruct (decide (id0 = id)) as [->|Hne]; [by left|right; left].
    destruct (decide (0 <= id0 < 2 ^ 63 /\ is_Some (db !! id0))) as [[Hroute [r0 Hr0]]|Hnot].
    + rewrite (delete_found db id0 r0 Hroute Hr0). simpl. by rewrite lookup_delete_ne.
    + by rewrite (proj2 (proj2 (item_table db id0 (NotJson "") Hnot))).
Qed.

(** ** Status codes *)

(** The complement of [item_table], as a case split. *)
Lemma item_cases (db : gmap Z row) (id : Z) :
  (0 <= id < 2 ^ 63 /\ exists r, db !! id = Some r)
  \/ (id < 2 ^ 63 /\ (id < 0 \/ db !! id = None))
  \/ 2 ^ 63 <= id.
Proof.
  destruct (decide (2 ^ 63 <= id)); [by right; right|].
  destruct (decide (id < 0)); [right; left; split; [lia|by left]|].
  destruct (db !! id) as [r|] eqn:Hr.
  - left. split; [lia|by eexists].
  - right; left. split; [lia|by right].
Qed.

Lemma item_absent (db : gmap Z row) (id : Z) (data : payload) :
  id < 2 ^ 63 -> id < 0 \/ db !! id = None ->
  serve db (GET_plant id) = (not_found, db)
  /\ serve db (PATCH_plant id data) = (not_found, db)
  /\ serve db (DELETE_plant id) = (not_found, db).
Proof.
  intros Hfit [Hneg|Hmiss]; [by apply item_unrouted|by apply item_missing].
Qed.

Lemma rowid_of_int64 (v : value) (n : Z) : rowid_of v = inr n -> int64 n = true.
Proof.
  destruct v as [|b|m|x|s|l|d]; simpl; try discriminate.
  - intros [= <-]. by destruct b.
  - destruct (int64 m) eqn:Hm; [|discriminate]. by intros [= <-].
  - destruct (real_key x) as [m|]; [|discriminate].
    destruct (int64 m) eqn:Hm; [|discriminate]. by intros [= <-].
  - destruct (text_key s) as [m|]; [|discriminate].
    destruct (int64 m) eqn:Hm; [|discriminate]. by intros [= <-].
Qed.

(** X1: each verb answers only with its own status codes, and the only
    500 is the one of a /plants/{id} request whose identifier is 2^63 or
    more: GET /plants 200; POST /plants 201 or 400; below 2^63,
    GET /plants/{id} 200 or 404, PATCH 200, 400 or 404, DELETE 204 or 404. *)
Theorem status_by_request (db : gmap Z row) (req : request) :
  let st := status (serve db req).1 in
  match req with
  | GET_plants => st = 200
  | POST_plants _ => st = 201 \/ st = 400
  | GET_plant id => if bool_decide (id < 2 ^ 63) then st = 200 \/ st = 404 else st = 500
  | PATCH_plant id _ =>
      if bool_decide (id < 2 ^ 63) then st = 200 \/ st = 400 \/ st = 404 else st = 500
  | DELETE_plant id => if bool_decide (id < 2 ^ 63) then st = 204 \/ st = 404 else st = 500
  end.
Proof.
  destruct req as [|data|id|id data|id]; cbv zeta.
  - by run_handler.
  - destruct (post_cases db data) as [[msg ->]|(d & n & i & p & _ & _ & _ & _ & ->)];
      [by right|by left].
  - destruct (item_cases db id) as [[Hid [r Hr]]|[[Hfit Habs]|Hbig]].
    + rewrite bool_decide_eq_true_2 by lia. left.
      by rewrite (get_found db id r Hid Hr).
    + rewrite bool_decide_eq_true_2 by lia. right.
      by rewrite (proj1 (item_absent db id (NotJson "") Hfit Habs)).
    + rewrite bool_decide_eq_false_2 by lia.
      by rewrite (proj1 (item_oversize db id (NotJson "") Hbig)).
  - destruct (item_cases db id) as [[Hid [r Hr]]|[[Hfit Habs]|Hbig]].
    + rewrite bool_decide_eq_true_2 by lia.
      destruct (patch_cases db id r Hid Hr data)
        as [[msg ->]|(d & id' & _ & _ & _ & _ & ->)]; [right; by left|].
      destruct (d !! "to_dict"); [right; by left|by left].
    + rewrite bool_decide_eq_true_2 by lia. right; right.
      by rewrite (proj1 (proj2 (item_absent db id data Hfit Habs))).
    + rewrite bool_decide_eq_false_2 by lia.
      by rewrite (proj1 (proj2 (item_oversize db id data Hbig))).
  - destruct (item_cases db id) as [[Hid [r Hr]]|[[Hfit Habs]|Hbig]].
    + rewrite bool_decide_eq_true_2 by lia. left.
      by rewrite (delete_found db id r Hid Hr).
    + rewrite bool_decide_eq_true_2 by lia. right.
      by rewrite (proj2 (proj2 (item_absent db id (NotJson "") Hfit Habs))).
    + rewrite bool_decide_eq_false_2 by lia.
      by rewrite (proj2 (proj2 (item_oversize db id (NotJson "") Hbig))).
Qed.

(** X2: a request answered 400, 404 or 500 leaves the table exactly as it
    was, unless it is a PATCH whose body has a key that matches another
    attribute of the entity than a column. *)
Theorem error_stores_nothing (db : gmap Z row) (req : request) :
  patches_columns_only req = true ->
  status (serve db req).1 = 400 \/ status (serve db req).1 = 404
  \/ status (serve db req).1 = 500 ->
  (serve db req).2 = db.
Proof.
  intros Hhide Hst.
  destruct req as [|data|id|id data|id].
  - by run_handler.
  - destruct (post_cases db data) as [[msg Heq]|(d & n & i & p & _ & _ & _ & _ & Heq)];
      rewrite Heq in *; [done|].
    simpl in Hst. by destruct Hst as [?|[?|?]].
  - apply get_plant_table.
  - destruct (item_cases db id) as [[Hid [r Hr]]|[[Hfit Habs]|Hbig]].
    + destruct (patch_cases db id r Hid Hr data)
        as [[msg Heq]|(d & id' & -> & _ & _ & _ & Heq)];
        rewrite Heq in *; [done|].
      simpl in Hhide. rewrite (columns_only_lookup d "to_dict") in Hst by done.
      simpl in Hst. by destruct Hst as [?|[?|?]].
    + by rewrite (proj1 (proj2 (item_absent db id data Hfit Habs))).
    + by rewrite (proj1 (proj2 (item_oversize db id data Hbig))).
  - destruct (item_cases db id) as [[Hid [r Hr]]|[[Hfit Habs]|Hbig]].
    + rewrite (delete_found db id r Hid Hr) in Hst. simpl in Hst.
      by destruct Hst as [?|[?|?]].
    + by rewrite (proj2 (proj2 (item_absent db id (NotJson "") Hfit Habs))).
    + by rewrite (proj2 (proj2 (item_oversize db id (NotJson "") Hbig))).
Qed.

(** ** More on creation *)

(** X3: a POST whose object lacks name, image or price is answered 400,
    the one error message is the first missing key in quotes (name before
    image before price), and nothing is stored. *)
Theorem post_missing_key (db : gmap Z row) (d : gmap string value) (key : string) :
  first_missing d = Some key ->
  serve db (POST_plants (Json (VDict d)))
  = (make_response (jsonify (VDict {[ "errors" := VList [VStr ("'" ++ key ++ "'")] ]})) 400, db).
Proof.
  unfold first_missing. intros Hmiss. run_handler. unfold getitem.
  destruct (d !! "name") as [name|]; [|by inversion Hmiss].
  destruct (d !! "image") as [image|]; [|by inversion Hmiss].
  destruct (d !! "price") as [price|]; [|by inversion Hmiss].
  discriminate Hmiss.
Qed.

(** X4: a POST answered 201 had an object with name, image and price as
    its body; the table after it is the table before with one new row,
    holding the submitted values, under an identifier that was not in use,
    so the table has one more row and every earlier row is as it was. *)
Theorem post_created (db db' : gmap Z row) (data : payload) (resp : response) :
  serve db (POST_plants data) = (resp, db') -> status resp = 201 ->
  exists (d : gmap string value) (id : Z) (name image price : value),
    data = Json (VDict d)
    /\ d !! "name" = Some name /\ d !! "image" = Some image /\ d !! "price" = Some price
    /\ db !! id = None
    /\ db' = <[id := mk_row name image price (default (VBool true) (d !! "is_in_stock"))]> db
    /\ size db' = S (size db)
    /\ forall (id0 : Z) (r0 : row), db !! id0 = Some r0 -> db' !! id0 = Some r0.
Proof.
  intros Hpost Hst.
  destruct (post_cases db data) as [[msg Heq]|(d & name & image & price & -> & Hn & Hi & Hp & Heq)].
  - rewrite Heq in Hpost. inversion Hpost; subst. discriminate Hst.
  - cbv zeta in Heq. rewrite Heq in Hpost. inversion Hpost; subst. clear Hpost.
    exists d, (next_rowid db), name, image, price.
    pose proof (next_rowid_fresh db) as Hfresh.
    repeat (split; [done|]). split.
    + by apply map_size_insert_None.
    + intros id0 r0 Hr0. rewrite lookup_insert_ne; [done|]. congruence.
Qed.

(** ** More on reading *)

(** X5: GET /plants and GET /plants/{id} agree: every record some
    identifier is answered 200 with is an element of the array, and every
    element of the array carries an integer id and, when the route accepts
    that id, is what GET on it answers with 200. *)
Theorem get_plants_lists_stored (db : gmap Z row) :
  exists plants : list value,
    serve db GET_plants = (make_response (jsonify (VList plants)) 200, db)
    /\ (forall (id : Z) (v : value),
          serve db (GET_plant id) = (make_response (jsonify v) 200, db) -> v ∈ plants)
    /\ (forall v : value,
          v ∈ plants ->
          exists id : Z,
            getitem v "id" = inr (VInt id)
            /\ (0 <= id < 2 ^ 63 ->
                serve db (GET_plant id) = (make_response (jsonify v) 200, db))).
Proof.
  eexists. split; [apply get_plants_eq|]. split.
  - intros id v Hget. apply elem_of_listing.
    destruct (item_cases db id) as [[Hid [r Hr]]|[[Hfit Habs]|Hbig]].
    + rewrite (get_found db id r Hid Hr) in Hget.
      exists id, r. split; [done|]. by inversion Hget.
    + rewrite (proj1 (item_absent db id (NotJson "") Hfit Habs)) in Hget.
      inversion Hget.
    + rewrite (proj1 (item_oversize db id (NotJson "") Hbig)) in Hget.
      inversion Hget.
  - intros v Hin. apply elem_of_listing in Hin as (id & r & Hr & ->).
    exists id. split.
    + unfold getitem, Plant.to_dict. by rewrite lookup_insert_eq.
    + intros Hid. by apply get_found.
Qed.

(** X6: after a POST answered 201, GET /plants lists the created record
    and has one element more than the table had rows. *)
Theorem post_then_list (db db' : gmap Z row) (data : payload) (resp : response) :
  serve db (POST_plants data) = (resp, db') -> status resp = 201 ->
  exists (v : value) (plants : list value),
    body resp = JSON v
    /\ serve db' GET_plants = (make_response (jsonify (VList plants)) 200, db')
    /\ v ∈ plants
    /\ length plants = S (size db).
Proof.
  intros Hpost Hst.
  destruct (post_cases db data) as [[msg Heq]|(d & name & image & price & -> & _ & _ & _ & Heq)].
  - rewrite Heq in Hpost. inversion Hpost; subst. discriminate Hst.
  - cbv zeta in Heq. rewrite Heq in Hpost. inversion Hpost; subst. clear Hpost.
    eexists _, _. split; [reflexivity|]. split; [apply get_plants_eq|]. split.
    + apply elem_of_listing. eexists _, _. split; [apply lookup_insert_eq|reflexivity].
    + rewrite !length_fmap, length_map_to_list.
      apply map_size_insert_None, next_rowid_fresh.
Qed.

(** X7: after a POST answered 201, when the identifier it returned is one
    the route accepts, DELETE of that identifier is answered 204 and
    leaves the table that was there before the POST. *)
Theorem post_then_delete (db db' : gmap Z row) (data : payload) (resp : response) :
  serve db (POST_plants data) = (resp, db') -> status resp = 201 ->
  exists (plant : Plant.t) (id : Z),
    body resp = JSON (Plant.to_dict plant)
    /\ Plant.id plant = VInt id
    /\ (0 <= id < 2 ^ 63 ->
        serve db' (DELETE_plant id) = (make_response (Text "") 204, db)).
Proof.
  intros Hpost Hst.
  destruct (post_cases db data) as [[msg Heq]|(d & name & image & price & -> & _ & _ & _ & Heq)].
  - rewrite Heq in Hpost. inversion Hpost; subst. discriminate Hst.
  - cbv zeta in Heq. rewrite Heq in Hpost. inversion Hpost; subst. clear Hpost.
    eexists _, (next_rowid db). split; [reflexivity|]. split; [reflexivity|].
    intros Hid. erewrite delete_found; [|done|apply lookup_insert_eq].
    by rewrite delete_insert_eq, delete_id by apply next_rowid_fresh.
Qed.

(** ** More on partial update *)

(** X8: when PATCH is answered 200, the answer carries an integer id, and
    when that id is not negative, GET on it is answered with the same
    response. *)
Theorem patch_then_get (db db' : gmap Z row) (id : Z) (data : payload) (resp : response) :
  serve db (PATCH_plant id data) = (resp, db') -> status resp = 200 ->
  exists (plant : Plant.t) (id' : Z),
    body resp = JSON (Plant.to_dict plant)
    /\ Plant.id plant = VInt id'
    /\ (0 <= id' -> serve db' (GET_plant id') = (resp, db')).
Proof.
  intros Hpatch Hst.
  destruct (item_cases db id) as [[Hid [r Hr]]|[[Hfit Habs]|Hbig]].
  - destruct (patch_cases db id r Hid Hr data)
      as [[msg Heq]|(d & id' & -> & _ & Hkey & _ & Heq)].
    + rewrite Heq in Hpatch. inversion Hpatch; subst. discriminate Hst.
    + cbv zeta in Heq. rewrite Heq in Hpatch.
      destruct (d !! "to_dict") as [v|];
        inversion Hpatch; subst; [discriminate Hst|]. clear Hpatch.
      eexists _, id'. split; [reflexivity|]. split; [reflexivity|].
      intros Hpos. apply rowid_of_int64 in Hkey.
      apply bool_decide_eq_true in Hkey.
      apply get_found; [lia|apply lookup_insert_eq].
  - rewrite (proj1 (proj2 (item_absent db id data Hfit Habs))) in Hpatch.
    inversion Hpatch; subst. discriminate Hst.
  - rewrite (proj1 (proj2 (item_oversize db id data Hbig))) in Hpatch.
    inversion Hpatch; subst. discriminate Hst.
Qed.

(** X9: a PATCH whose body does not set id can be repeated: sent again to
    the table it left, it is answered with the same response and leaves
    the same table. *)
Theorem patch_repeated (db : gmap Z row) (id : Z) (data : payload) :
  sets_id (PATCH_plant id data) = false ->
  serve (serve db (PATCH_plant id data)).2 (PATCH_plant id data)
  = serve db (PATCH_plant id data).
Proof.
  intros Hsets.
  destruct (item_cases db id) as [[Hid [r Hr]]|[[Hfit Habs]|Hbig]].
  - destruct (is_object data) eqn:Hobj.
    + destruct data as [msg|[| | | | | |d]]; try discriminate Hobj.
      simpl in Hsets. apply bool_decide_eq_false in Hsets.
      assert (Hd : d !! "id" = None).
      { destruct (d !! "id") eqn:E; [|done]. destruct Hsets. by eexists. }
      destruct (d !! "__class__") as [v|] eqn:Hclass.
      * assert (Heq : serve db (PATCH_plant id (Json (VDict d)))
                      = (make_response (jsonify (errors_of (Plant.not_a_class v))) 400, db))
          by (by rewrite (patch_object db id r Hid Hr), Hclass).
        rewrite Heq. simpl. exact Heq.
      * rewrite (patch_in_place db id r Hid Hr) by done. cbv zeta. simpl.
        set (plant := patched d (load id r)).
        assert (Hplant : Plant.id plant = VInt id)
          by (unfold plant; by rewrite patched_id).
        rewrite (patch_in_place _ id (row_of plant) Hid) by (done || apply lookup_insert_eq).
        cbv zeta. rewrite (load_row_of plant id Hplant).
        unfold plant. rewrite patched_twice. by rewrite insert_insert_eq.
    + destruct (patch_not_object db id r Hid Hr data Hobj) as [msg Heq].
      rewrite Heq. simpl. exact Heq.
  - pose proof (proj1 (proj2 (item_absent db id data Hfit Habs))) as Heq.
    rewrite Heq. simpl. exact Heq.
  - pose proof (proj1 (proj2 (item_oversize db id data Hbig))) as Heq.
    rewrite Heq. simpl. exact Heq.
Qed.

(** X10: whatever its body, PATCH /plants/{id} leaves every record stored
    under another identifier in place and unchanged, and the table keeps
    its number of rows. *)
Theorem patch_leaves_others (db : gmap Z row) (id : Z) (data : payload) :
  (forall (id0 : Z) (r0 : row),
      id0 <> id -> db !! id0 = Some r0 ->
      (serve db (PATCH_plant id data)).2 !! id0 = Some r0)
  /\ size (serve db (PATCH_plant id data)).2 = size db.
Proof.
  destruct (item_cases db id) as [[Hid [r Hr]]|[[Hfit Habs]|Hbig]].
  - destruct (patch_cases db id r Hid Hr data)
      as [[msg Heq]|(d & id' & -> & _ & _ & Hfree & Heq)].
    + rewrite Heq. by split.
    + cbv zeta in Heq. rewrite Heq. simpl.
      destruct Hfree as [->|Hfree].
      * rewrite insert_delete_eq. split.
        -- intros id0 r0 Hne Hr0. by rewrite lookup_insert_ne.
        -- apply map_size_insert_Some. by eexists.
      * assert (Hne' : id' <> id) by congruence.
        split.
        -- intros id0 r0 Hne Hr0.
           rewrite lookup_insert_ne by congruence.
           by rewrite lookup_delete_ne.
        -- rewrite map_size_insert_None by (by rewrite lookup_delete_ne).
           by rewrite (size_delete_stored db id r Hr).
  - rewrite (proj1 (proj2 (item_absent db id data Hfit Habs))). by split.
  - rewrite (proj1 (proj2 (item_oversize db id data Hbig))). by split.
Qed.

(** X11: on a stored identifier that the route accepts, a PATCH whose body
    is not JSON, or is JSON that is not an object (null, a number, a
    string, an array), is answered 400 with a one-element errors array,
    and nothing changes. *)
Theorem patch_non_object (db : gmap Z row) (id : Z) (r : row) (data : payload) :
  0 <= id < 2 ^ 63 -> db !! id = Some r -> is_object data = false ->
  exists msg : string,
    serve db (PATCH_plant id data)
    = (make_response (jsonify (VDict {[ "errors" := VList [VStr msg] ]})) 400, db).
Proof. intros Hid Hr Hobj. exact (patch_not_object db id r Hid Hr data Hobj). Qed.

(** ** More on deletion *)

(** X12: DELETE on a stored identifier that the route accepts removes that
    row only: the table has one row less and every other identifier maps
    to what it mapped to. *)
Theorem delete_removes_one (db : gmap Z row) (id : Z) (r : row) :
  0 <= id < 2 ^ 63 -> db !! id = Some r ->
  let db' := (serve db (DELETE_plant id)).2 in
  db' !! id = None
  /\ size db = S (size db')
  /\ forall id0 : Z, id0 <> id -> db' !! id0 = db !! id0.
Proof.
  intros Hid Hr db'. unfold db'. rewrite (delete_found db id r Hid Hr). simpl.
  split; [apply lookup_delete_eq|].
  split; [by apply (size_delete_stored db id r)|].
  intros id0 Hne. by rewrite lookup_delete_ne.
Qed.

(** X13: a DELETE sent a second time for an identifier below 2^63 is
    answered 404 and changes nothing, whether or not the first one found
    the record. *)
Theorem delete_twice (db : gmap Z row) (id : Z) :
  id < 2 ^ 63 ->
  let db' := (serve db (DELETE_plant id)).2 in
  serve db' (DELETE_plant id) = (not_found, db').
Proof.
  intros Hfit db'. unfold db'.
  apply (item_absent _ id (NotJson "")); [done|].
  destruct (item_cases db id) as [[Hid [r Hr]]|[[_ [Hneg|Hmiss]]|Hbig]].
  - right. rewrite (delete_found db id r Hid Hr). apply lookup_delete_eq.
  - by left.
  - right. by rewrite (proj2 (proj2 (item_missing db id (NotJson "") Hfit Hmiss))).
  - lia.
Qed.

End Service.

(** ** Runs on the sample store *)

#[global] Existing Instance sample_affinity.

Example scenario_post :
  serve ∅ (POST_plants (Json aloe))
  = (make_response (jsonify (Plant.to_dict (load 1 aloe_row))) 201, {[ 1 := aloe_row ]}).
Proof. vm_compute. reflexivity. Qed.

Example scenario_get :
  serve {[ 1 := aloe_row ]} (GET_plant 1)
  = (make_response (jsonify (Plant.to_dict (load 1 aloe_row))) 200, {[ 1 := aloe_row ]}).
Proof. vm_compute. reflexivity. Qed.

Example scenario_delete :
  serve {[ 1 := aloe_row ]} (DELETE_plant 1) = (make_response (Text "") 204, ∅).
Proof. vm_compute. reflexivity. Qed.

Example scenario_get_deleted :
  serve ∅ (GET_plant 1) = (not_found, ∅).
Proof. vm_compute. reflexivity. Qed.

(** A record reaches a negative identifier through PATCH. *)
Example moved_plant_reachable : serve_all ∅ move_plant = moved_plant.
Proof. vm_compute. reflexivity. Qed.

(** The store reads the text ["7"] and the float [7.0] as the key 7. *)
Example patch_id_text :
  serve {[ 1 := aloe_row ]} (PATCH_plant 1 (Json (VDict {[ "id" := VStr "7" ]})))
  = (make_response (jsonify (Plant.to_dict (load 7 aloe_row))) 200, {[ 7 := aloe_row ]}).
Proof. vm_compute. reflexivity. Qed.

Example patch_id_float :
  serve {[ 1 := aloe_row ]} (PATCH_plant 1 (Json (VDict {[ "id" := VFloat 7 ]})))
  = (make_response (jsonify (Plant.to_dict (load 7 aloe_row))) 200, {[ 7 := aloe_row ]}).
Proof. vm_compute. reflexivity. Qed.

(** An identifier of 2^63 is refused by the commit, inside the [try]. *)
Example patch_id_oversize :
  status (serve {[ 1 := aloe_row ]}
            (PATCH_plant 1 (Json (VDict {[ "id" := VInt (2 ^ 63) ]})))).1 = 400
  /\ (serve {[ 1 := aloe_row ]}
        (PATCH_plant 1 (Json (VDict {[ "id" := VInt (2 ^ 63) ]})))).2 = {[ 1 := aloe_row ]}.
Proof. split; vm_compute; reflexivity. Qed.

(** Hiding [to_dict]: the commit stores the new name, then the call of
    [to_dict] fails and the answer is 400. *)
Example patch_hidden_to_dict :
  status (serve {[ 1 := aloe_row ]} (PATCH_plant 1 (Json (VDict hidden_to_dict)))).1 = 400
  /\ (serve {[ 1 := aloe_row ]} (PATCH_plant 1 (Json (VDict hidden_to_dict)))).2
     = {[ 1 := mk_row (VStr "X") (VStr "aloe.jpg") (VInt 15) (VBool true) ]}.
Proof. split; vm_compute; reflexivity. Qed.

(** ** Refuted readings *)


(** PATCH /plants/1 with [{"id": 7}] is answered 200 and the record that
    was stored under 1 is stored under 7 afterwards. *)
Lemma patch_overwrites_id :
  serve {[ 1 := aloe_row ]} (PATCH_plant 1 (Json (VDict {[ "id" := VInt 7 ]})))
  = (make_response (jsonify (Plant.to_dict (load 7 aloe_row))) 200, {[ 7 := aloe_row ]})
  /\ ~ keeps_ids {[ 1 := aloe_row ]} (PATCH_plant 1 (Json (VDict {[ "id" := VInt 7 ]}))).
Proof.
  split; [vm_compute; reflexivity|].
  intros Hkeeps.
  destruct (Hkeeps 1 aloe_row) as [Hreq|[Hsame|(_ & [r Hr] & _)]].
  - reflexivity.
  - discriminate Hreq.
  - vm_compute in Hsame. discriminate Hsame.
  - vm_compute in Hr. discriminate Hr.
Qed.

(** The fern is stored under -5, and PATCH /plants/-5 with
    [{"is_in_stock": false}] matches no route: 404, nothing changes. *)
Lemma patch_is_in_stock_unrouted :
  serve_all ∅ move_plant = moved_plant
  /\ moved_plant !! (-5) = Some fern_row
  /\ serve moved_plant (PATCH_plant (-5) (Json (VDict {[ "is_in_stock" := VBool false ]})))
     = (not_found, moved_plant)
  /\ status not_found <> 200.
Proof. repeat split; try (vm_compute; reflexivity). vm_compute. discriminate. Qed.

(** The fern is stored under -5, and DELETE /plants/-5 matches no route:
    404, and the record stays. *)
Lemma delete_unrouted :
  serve_all ∅ move_plant = moved_plant
  /\ moved_plant !! (-5) = Some fern_row
  /\ serve moved_plant (DELETE_plant (-5)) = (not_found, moved_plant)
  /\ status not_found <> 204.
Proof. repeat split; try (vm_compute; reflexivity). vm_compute. discriminate. Qed.

(** The fern is stored under -5, and PATCH /plants/-5 with [{}] matches no
    route: 404. *)
Lemma patch_empty_unrouted :
  serve_all ∅ move_plant = moved_plant
  /\ moved_plant !! (-5) = Some fern_row
  /\ serve moved_plant (PATCH_plant (-5) (Json (VDict ∅))) = (not_found, moved_plant)
  /\ status not_found <> 200.
Proof. repeat split; try (vm_compute; reflexivity). vm_compute. discriminate. Qed.


(** ** Instances *)


Lemma post_without_name_witness :
  has_key "name" (Json (VDict {[ "image" := VStr "aloe.jpg" ]})) = false
  /\ exists msg : string,
      serve two_plants (POST_plants (Json (VDict {[ "image" := VStr "aloe.jpg" ]})))
      = (make_response (jsonify (VDict {[ "errors" := VList [VStr msg] ]})) 400, two_plants).
Proof.
  split; [reflexivity|].
  apply (post_without_name two_plants (Json (VDict {[ "image" := VStr "aloe.jpg" ]}))).
  reflexivity.
Defined.

Lemma oversize_id_server_error_witness :
  2 ^ 63 <= 9223372036854775808
  /\ status (serve two_plants (GET_plant 9223372036854775808)).1 = 500
  /\ status (serve two_plants (PATCH_plant 9223372036854775808 (Json aloe))).1 = 500
  /\ status (serve two_plants (DELETE_plant 9223372036854775808)).1 = 500.
Proof.
  split; [lia|].
  apply (oversize_id_server_error two_plants 9223372036854775808 (Json aloe)). lia.
Defined.

Lemma delete_then_get_witness :
  0 <= 2 < 2 ^ 63
  /\ two_plants !! 2 = Some fern_row
  /\ exists db' : gmap Z row,
      serve two_plants (DELETE_plant 2) = (make_response (Text "") 204, db')
      /\ serve db' (GET_plant 2) = (not_found, db').
Proof.
  split; [lia|]. split; [reflexivity|].
  apply (delete_then_get two_plants 2 fern_row); [lia|reflexivity].
Defined.

Lemma patch_is_in_stock_false_witness :
  let sold_out := mk_row (VStr "Aloe") (VStr "aloe.jpg") (VInt 15) (VBool false) in
  0 <= 1 < 2 ^ 63
  /\ two_plants !! 1 = Some aloe_row
  /\ serve two_plants (PATCH_plant 1 (Json (VDict {[ "is_in_stock" := VBool false ]})))
     = (make_response (jsonify (Plant.to_dict (load 1 sold_out))) 200,
        <[1 := sold_out]> two_plants)
  /\ forall id' : Z, id' <> 1 -> <[1 := sold_out]> two_plants !! id' = two_plants !! id'.
Proof.
  intros sold_out. split; [lia|]. split; [reflexivity|].
  apply (patch_is_in_stock_false two_plants 1 aloe_row); [lia|reflexivity].
Defined.

Lemma patch_empty_object_witness :
  0 <= 1 < 2 ^ 63
  /\ two_plants !! 1 = Some aloe_row
  /\ serve two_plants (PATCH_plant 1 (Json (VDict ∅)))
     = (make_response (jsonify (Plant.to_dict (load 1 aloe_row))) 200, two_plants)
  /\ serve two_plants (PATCH_plant 1 (Json (VDict ∅))) = serve two_plants (GET_plant 1).
Proof.
  split; [lia|]. split; [reflexivity|].
  apply (patch_empty_object two_plants 1 aloe_row); [lia|reflexivity].
Defined.


Lemma id_kept_unless_patched_witness :
  sets_id (PATCH_plant 1 (Json (VDict green_name))) = false
  /\ keeps_ids two_plants (PATCH_plant 1 (Json (VDict green_name))).
Proof.
  split; [reflexivity|].
  apply (id_kept_unless_patched two_plants). reflexivity.
Defined.

Lemma error_stores_nothing_witness :
  patches_columns_only (PATCH_plant 1 (Json (VDict green_id_2))) = true
  /\ (status (serve two_plants (PATCH_plant 1 (Json (VDict green_id_2)))).1 = 400
      \/ status (serve two_plants (PATCH_plant 1 (Json (VDict green_id_2)))).1 = 404
      \/ status (serve two_plants (PATCH_plant 1 (Json (VDict green_id_2)))).1 = 500)
  /\ (serve two_plants (PATCH_plant 1 (Json (VDict green_id_2)))).2 = two_plants.
Proof.
  assert (Hst : status (serve two_plants (PATCH_plant 1 (Json (VDict green_id_2)))).1 = 400
                \/ status (serve two_plants (PATCH_plant 1 (Json (VDict green_id_2)))).1 = 404
                \/ status (serve two_plants (PATCH_plant 1 (Json (VDict green_id_2)))).1 = 500)
    by (left; vm_compute; reflexivity).
  split; [reflexivity|]. split; [exact Hst|].
  exact (error_stores_nothing two_plants (PATCH_plant 1 (Json (VDict green_id_2))) eq_refl Hst).
Defined.

Lemma post_missing_key_witness :
  first_missing {[ "name" := VStr "Aloe"; "price" := VInt 15 ]} = Some "image"
  /\ serve two_plants (POST_plants (Json (VDict {[ "name" := VStr "Aloe"; "price" := VInt 15 ]})))
     = (make_response (jsonify (VDict {[ "errors" := VList [VStr "'image'"] ]})) 400, two_plants).
Proof.
  split; [reflexivity|].
  apply (post_missing_key two_plants {[ "name" := VStr "Aloe"; "price" := VInt 15 ]} "image").
  reflexivity.
Defined.

Lemma post_created_witness :
  serve ∅ (POST_plants (Json aloe))
  = (make_response (jsonify (Plant.to_dict (load 1 aloe_row))) 201, {[ 1 := aloe_row ]})
  /\ exists (d : gmap string value) (id : Z) (name image price : value),
      Json aloe = Json (VDict d)
      /\ d !! "name" = Some name /\ d !! "image" = Some image /\ d !! "price" = Some price
      /\ (∅ : gmap Z row) !! id = None
      /\ ({[ 1 := aloe_row ]} : gmap Z row)
         = <[id := mk_row name image price (default (VBool true) (d !! "is_in_stock"))]> ∅
      /\ size ({[ 1 := aloe_row ]} : gmap Z row) = S (size (∅ : gmap Z row))
      /\ forall (id0 : Z) (r0 : row),
          (∅ : gmap Z row) !! id0 = Some r0 -> ({[ 1 := aloe_row ]} : gmap Z row) !! id0 = Some r0.
Proof.
  assert (Hpost : serve ∅ (POST_plants (Json aloe))
              = (make_response (jsonify (Plant.to_dict (load 1 aloe_row))) 201,
                 {[ 1 := aloe_row ]}))
    by (vm_compute; reflexivity).
  split; [exact Hpost|].
  exact (post_created ∅ {[ 1 := aloe_row ]} (Json aloe) _ Hpost eq_refl).
Defined.

Lemma get_plants_lists_stored_witness :
  exists plants : list value,
    serve two_plants GET_plants = (make_response (jsonify (VList plants)) 200, two_plants)
    /\ Plant.to_dict (load 2 fern_row) ∈ plants.
Proof.
  destruct (get_plants_lists_stored two_plants) as (plants & Hall & Hfetched & _).
  exists plants. split; [exact Hall|].
  apply (Hfetched 2). vm_compute. reflexivity.
Defined.

Lemma post_then_list_witness :
  serve two_plants (POST_plants (Json aloe))
  = (make_response (jsonify (Plant.to_dict (load 3 aloe_row))) 201, <[3 := aloe_row]> two_plants)
  /\ exists (v : value) (plants : list value),
      body (make_response (jsonify (Plant.to_dict (load 3 aloe_row))) 201) = JSON v
      /\ serve (<[3 := aloe_row]> two_plants) GET_plants
         = (make_response (jsonify (VList plants)) 200, <[3 := aloe_row]> two_plants)
      /\ v ∈ plants
      /\ length plants = S (size two_plants).
Proof.
  assert (Hpost : serve two_plants (POST_plants (Json aloe))
              = (make_response (jsonify (Plant.to_dict (load 3 aloe_row))) 201,
                 <[3 := aloe_row]> two_plants))
    by (vm_compute; reflexivity).
  split; [exact Hpost|].
  exact (post_then_list two_plants _ (Json aloe) _ Hpost eq_refl).
Defined.

Lemma post_then_delete_witness :
  serve two_plants (POST_plants (Json aloe))
  = (make_response (jsonify (Plant.to_dict (load 3 aloe_row))) 201, <[3 := aloe_row]> two_plants)
  /\ exists (plant : Plant.t) (id : Z),
      body (make_response (jsonify (Plant.to_dict (load 3 aloe_row))) 201)
      = JSON (Plant.to_dict plant)
      /\ Plant.id plant = VInt id
      /\ (0 <= id < 2 ^ 63 ->
          serve (<[3 := aloe_row]> two_plants) (DELETE_plant id)
          = (make_response (Text "") 204, two_plants)).
Proof.
  assert (Hpost : serve two_plants (POST_plants (Json aloe))
              = (make_response (jsonify (Plant.to_dict (load 3 aloe_row))) 201,
                 <[3 := aloe_row]> two_plants))
    by (vm_compute; reflexivity).
  split; [exact Hpost|].
  exact (post_then_delete two_plants _ (Json aloe) _ Hpost eq_refl).
Defined.

Lemma patch_then_get_witness :
  serve {[ 1 := aloe_row ]} (PATCH_plant 1 (Json (VDict {[ "id" := VInt 7 ]})))
  = (make_response (jsonify (Plant.to_dict (load 7 aloe_row))) 200, {[ 7 := aloe_row ]})
  /\ exists (plant : Plant.t) (id' : Z),
      body (make_response (jsonify (Plant.to_dict (load 7 aloe_row))) 200)
      = JSON (Plant.to_dict plant)
      /\ Plant.id plant = VInt id'
      /\ (0 <= id' ->
          serve {[ 7 := aloe_row ]} (GET_plant id')
          = (make_response (jsonify (Plant.to_dict (load 7 aloe_row))) 200, {[ 7 := aloe_row ]})).
Proof.
  assert (Hpatch : serve {[ 1 := aloe_row ]} (PATCH_plant 1 (Json (VDict {[ "id" := VInt 7 ]})))
              = (make_response (jsonify (Plant.to_dict (load 7 aloe_row))) 200,
                 {[ 7 := aloe_row ]}))
    by (vm_compute; reflexivity).
  split; [exact Hpatch|].
  exact (patch_then_get {[ 1 := aloe_row ]} _ 1 _ _ Hpatch eq_refl).
Defined.

Lemma patch_repeated_witness :
  sets_id (PATCH_plant 1 (Json (VDict green_name))) = false
  /\ serve (serve two_plants (PATCH_plant 1 (Json (VDict green_name)))).2
       (PATCH_plant 1 (Json (VDict green_name)))
     = serve two_plants (PATCH_plant 1 (Json (VDict green_name))).
Proof.
  split; [reflexivity|].
  apply (patch_repeated two_plants 1 (Json (VDict green_name))). reflexivity.
Defined.

Lemma patch_leaves_others_witness :
  (2 <> 1 /\ two_plants !! 2 = Some fern_row)
  /\ (serve two_plants (PATCH_plant 1 (Json (VDict {[ "id" := VInt 7 ]})))).2 !! 2
     = Some fern_row
  /\ size (serve two_plants (PATCH_plant 1 (Json (VDict {[ "id" := VInt 7 ]})))).2
     = size two_plants.
Proof.
  split; [split; [discriminate|reflexivity]|].
  destruct (patch_leaves_others two_plants 1 (Json (VDict {[ "id" := VInt 7 ]})))
    as [Hothers Hsize].
  split; [apply (Hothers 2 fern_row); [discriminate|reflexivity]|exact Hsize].
Defined.

Lemma patch_non_object_witness :
  0 <= 1 < 2 ^ 63
  /\ two_plants !! 1 = Some aloe_row
  /\ is_object (Json (VList [VStr "is_in_stock"])) = false
  /\ exists msg : string,
      serve two_plants (PATCH_plant 1 (Json (VList [VStr "is_in_stock"])))
      = (make_response (jsonify (VDict {[ "errors" := VList [VStr msg] ]})) 400, two_plants).
Proof.
  split; [lia|]. split; [reflexivity|]. split; [reflexivity|].
  apply (patch_non_object two_plants 1 aloe_row (Json (VList [VStr "is_in_stock"])));
    [lia|reflexivity|reflexivity].
Defined.

Lemma delete_removes_one_witness :
  0 <= 2 < 2 ^ 63
  /\ two_plants !! 2 = Some fern_row
  /\ let db' := (serve two_plants (DELETE_plant 2)).2 in
     db' !! 2 = None
     /\ size two_plants = S (size db')
     /\ forall id0 : Z, id0 <> 2 -> db' !! id0 = two_plants !! id0.
Proof.
  split; [lia|]. split; [reflexivity|].
  apply (delete_removes_one two_plants 2 fern_row); [lia|reflexivity].
Defined.

Lemma delete_twice_witness :
  2 < 2 ^ 63
  /\ serve (serve two_plants (DELETE_plant 2)).2 (DELETE_plant 2)
     = (not_found, (serve two_plants (DELETE_plant 2)).2).
Proof.
  split; [lia|].
  apply (delete_twice two_plants 2). lia.
Defined.
